(** * Decorators over single-method interfaces: publishers and HTTP clients

    A shallow embedding of [examples/publisher/main.go] and
    [examples/doer/main.go].  Every implementer of the Go interfaces
    [Publisher] and [HTTPClient] may have side effects (printing, network
    calls, recording its arguments); a method is therefore a function that
    takes the state of the world and hands back its results together with the
    new state.  The world is a type parameter, so the statements below hold
    for every inner implementer, honest leaf or test double alike. *)

From Stdlib Require Import ZArith List String Ascii Bool Arith Lia DecimalString.
Import ListNotations.

Local Open Scope string_scope.
Local Open Scope list_scope.

(** ** Go values shared by both examples *)

Module Go.

(** A non-nil [error] carries its message; the nil error is [None]. *)
Definition error : Type := string.

(** What the caller of a constructor gets: the constructed value, or a
    rejection with a reason. *)
Inductive construction (A : Type) : Type :=
  | Constructed (a : A)
  | Rejected (reason : error).
Arguments Constructed {A} a.
Arguments Rejected {A} reason.

(** [strings.Join(elems, sep)]: the elements in order, [sep] between each
    two neighbours, nothing around a single element. *)
Fixpoint Join (elems : list string) (sep : string) : string :=
  match elems with
  | [] => ""
  | e :: rest =>
      match rest with
      | [] => e
      | _ :: _ => e ++ sep ++ Join rest sep
      end
  end.

(** [strings.ToUpper] on the bytes ['a'..'z']; other bytes are kept. *)
Definition upperByte (c : ascii) : ascii :=
  let n := nat_of_ascii c in
  if (97 <=? n)%nat && (n <=? 122)%nat then ascii_of_nat (n - 32) else c.

Fixpoint ToUpper (s : string) : string :=
  match s with
  | EmptyString => EmptyString
  | String c s' => String (upperByte c) (ToUpper s')
  end.

End Go.

(** ** examples/publisher/main.go *)

Module Pub.
Import Go.

(** [type Publisher interface { Publish(msg string) error }] *)
Record Publisher (W : Type) : Type :=
  { Publish : string -> W -> option error * W }.
Arguments Publish {W} _ _ _.

(** [type MockPublisher struct { PublishFn func(msg string) error }] *)
Record MockPublisher (W : Type) : Type :=
  { PublishFn : string -> W -> option error * W }.
Arguments PublishFn {W} _ _ _.

(** [func (p *MockPublisher) Publish(msg string) error]: the method calls
    the field, which makes every [*MockPublisher] a [Publisher]. *)
Definition Mock {W : Type} (p : MockPublisher W) : Publisher W :=
  {| Publish := fun msg => PublishFn p msg |}.

Definition TransformFunc : Type := string -> string.

(** [func TransformPublisher(p Publisher, tfn TransformFunc) Publisher] *)
Definition TransformPublisher {W : Type}
    (p : Publisher W) (tfn : TransformFunc) : Publisher W :=
  Mock {| PublishFn := fun msg => Publish p (tfn msg) |}.

(** The body of [for _, p := range ps { ... }; return nil]. *)
Fixpoint range_publish {W : Type}
    (ps : list (Publisher W)) (msg : string) (w : W) : option error * W :=
  match ps with
  | [] => (None, w)
  | p :: rest =>
      let (err, w') := Publish p msg w in
      match err with
      | Some e => (Some e, w')
      | None => range_publish rest msg w'
      end
  end.

(** [func MultiPublisher(ps ...Publisher) Publisher] *)
Definition MultiPublisher {W : Type} (ps : list (Publisher W)) : Publisher W :=
  Mock {| PublishFn := fun msg => range_publish ps msg |}.

(** [func BatchPublisher(p Publisher, batchSize int) Publisher].

    The slice [msgs] is a variable of the constructor captured by the
    returned closure: nothing but the closure can reach it.  It is the
    first component of the decorator's world; the inner publisher acts on
    the second one only.  [batchSize] is a Go [int], [len(msgs)] is too. *)
Definition BatchPublisher {W : Type}
    (p : Publisher W) (batchSize : Z) : Publisher (list string * W) :=
  Mock {| PublishFn := fun msg st =>
    let msgs := fst st ++ [msg] in
    if (Z.of_nat (List.length msgs) =? batchSize)%Z then
      let batchMsg := Join msgs "," in
      let (err, w') := Publish p batchMsg (snd st) in
      (err, (msgs, w'))
    else
      (None, (msgs, snd st)) |}.

(** [msgs := []string{}]: the world of a decorator that was just built. *)
Definition fresh {W : Type} (w : W) : list string * W := ([], w).

(** Neither constructor has an [error] result or a [panic]: the single
    statement of each is the [return] of the decorator. *)
Definition NewBatchPublisher {W : Type} (p : Publisher W) (batchSize : Z)
    : construction (Publisher (list string * W)) :=
  Constructed (BatchPublisher p batchSize).

(** *** Callers and test doubles *)

(** A caller that publishes [inputs] one after the other and keeps every
    returned error. *)
Fixpoint publish_all {W : Type}
    (p : Publisher W) (inputs : list string) (w : W)
    : list (option error) * W :=
  match inputs with
  | [] => ([], w)
  | m :: rest =>
      let (err, w1) := Publish p m w in
      let (errs, w2) := publish_all p rest w1 in
      (err :: errs, w2)
  end.

(** [spy id p] behaves as [p] and writes each call it receives (who was
    called, with what) to a log that sits next to [p]'s world. *)
Definition spy {W : Type} (id : nat) (p : Publisher W)
    : Publisher (list (nat * string) * W) :=
  Mock {| PublishFn := fun msg st =>
    let (err, w') := Publish p msg (snd st) in
    (err, (fst st ++ [(id, msg)], w')) |}.

(** The publishers of a sequence, spied on under their positions. *)
Fixpoint spies {W : Type} (from : nat) (ps : list (Publisher W))
    : list (Publisher (list (nat * string) * W)) :=
  match ps with
  | [] => []
  | p :: rest => spy from p :: spies (S from) rest
  end.

(** The world after each publisher of [ps] was called once, in order. *)
Fixpoint world_after {W : Type}
    (ps : list (Publisher W)) (msg : string) (w : W) : W :=
  match ps with
  | [] => w
  | p :: rest => world_after rest msg (snd (Publish p msg w))
  end.

(** What the [j]-th publisher answers when those before it were called. *)
Definition reply_at {W : Type}
    (ps : list (Publisher W)) (msg : string) (w : W) (j : nat) : option error :=
  match nth_error ps j with
  | Some p => fst (Publish p msg (world_after (firstn j ps) msg w))
  | None => None
  end.

(** A test double over a log of received messages, answering by [reply]. *)
Definition recorder (reply : string -> option error) : Publisher (list string) :=
  Mock {| PublishFn := fun msg log => (reply msg, log ++ [msg]) |}.

(** The publisher [errp] of [main]: it fails on every message. *)
Definition errp : Publisher (list string) :=
  recorder (fun msg => Some ("failed to send msg: " ++ msg)%string).

(** The publisher [mp] of [main], which here also records what it gets. *)
Definition mp : Publisher (list string) :=
  recorder (fun _ => None).

(** The states a decorator built by [BatchPublisher p batchSize] can be in
    between two calls. *)
Inductive reachable {W : Type} (p : Publisher W) (batchSize : Z)
    : list string * W -> Prop :=
  | reach_fresh : forall w, reachable p batchSize (fresh w)
  | reach_publish : forall st msg,
      reachable p batchSize st ->
      reachable p batchSize (snd (Publish (BatchPublisher p batchSize) msg st)).

End Pub.

(** ** examples/doer/main.go *)

Module Doer.
Import Go.

Section Clients.
(** The request and response types of [net/http] are opaque to the
    decorators.  A [Request] is the pointer the caller passes; what it points
    to belongs, like everything an implementer can touch, to the world. *)
Context {Request Response W : Type}.

(** The results of [Do]: a response pointer (possibly nil) and an error. *)
Definition result : Type := (option Response * option error)%type.

(** [type HTTPClient interface { Do(req) (response, error) }] *)
Record HTTPClient : Type :=
  { Do : Request -> W -> result * W }.

(** [type MockHTTPClient struct { DoFn func(req) (...) }] *)
Record MockHTTPClient : Type :=
  { DoFn : Request -> W -> result * W }.

Definition Mock (c : MockHTTPClient) : HTTPClient :=
  {| Do := fun req => DoFn c req |}.

(** The loop [for i := 0; i < retries; i++ { ... }] followed by
    [return nil, err].  Neither [i] nor [retries] is written in the body,
    so [remaining] = [retries - i] iterations are left on entry; [err] is
    the variable declared before the loop. *)
Fixpoint retry_loop (c : HTTPClient) (req : Request)
    (remaining : nat) (err : option error) (w : W) : result * W :=
  match remaining with
  | O => ((None, err), w)
  | S remaining' =>
      let (r, w') := Do c req w in
      match snd r with
      | Some e => retry_loop c req remaining' (Some e) w'
      | None => ((fst r, None), w')
      end
  end.

(** [func RetryHTTPClient(c HTTPClient, retries int) HTTPClient] *)
Definition RetryHTTPClient (c : HTTPClient) (retries : Z) : HTTPClient :=
  Mock {| DoFn := fun req => retry_loop c req (Z.to_nat retries) None |}.

Definition NewRetryHTTPClient (c : HTTPClient) (retries : Z)
    : construction HTTPClient :=
  Constructed (RetryHTTPClient c retries).

(** The world after [k] calls of [c.Do(req)] in a row. *)
Fixpoint after_attempts (c : HTTPClient) (req : Request) (k : nat) (w : W) : W :=
  match k with
  | O => w
  | S k' => after_attempts c req k' (snd (Do c req w))
  end.

(** The results of attempt number [k] (counted from 0). *)
Definition attempt (c : HTTPClient) (req : Request) (k : nat) (w : W) : result :=
  fst (Do c req (after_attempts c req k w)).

End Clients.

Arguments HTTPClient : clear implicits.
Arguments MockHTTPClient : clear implicits.
Arguments result : clear implicits.

(** [spy c] behaves as [c] and logs each request it receives. *)
Definition spy {Request Response W : Type} (c : HTTPClient Request Response W)
    : HTTPClient Request Response (list Request * W) :=
  Mock {| DoFn := fun req st =>
    let (r, w') := Do c req (snd st) in
    (r, (fst st ++ [req], w')) |}.

(** A test double that fails with ["down"] while fewer than [failures]
    requests were made and answers [200] afterwards; its world counts the
    requests. *)
Definition flaky (failures : nat) : HTTPClient string nat nat :=
  Mock {| DoFn := fun _ n =>
    if (n <? failures)%nat
    then ((None, Some ("down " ++ String (ascii_of_nat (48 + n)) "")%string), S n)
    else ((Some 200%nat, None), S n) |}.

End Doer.

(** ** The leaf publisher of examples/publisher/main.go *)

Module Leaf.
Import Go Pub.

(** What the leaf touches: the text written to standard output so far, and
    how often the clock was read. *)
Record Console : Type :=
  { stdout : string; clock_reads : nat }.

(** [%d] of an [int64]. *)
Definition decimal (n : Z) : string :=
  NilZero.string_of_int (Z.to_int n).

(** The text [fmt.Printf("[%d] Publishing message to %s: %s\n", t, dest, msg)]
    writes. *)
Definition line (t : Z) (dest msg : string) : string :=
  ("[" ++ decimal t ++ "] Publishing message to " ++ dest ++ ": " ++ msg
   ++ String "010"%char "")%string.

(** [type publisher struct { destination string }] *)
Record publisher : Type :=
  { destination : string }.

Section Clock.
(** The clock is an oracle: [UnixNano k] is what the [k]-th evaluation of
    [time.Now().UnixNano()] gives. *)
Variable UnixNano : nat -> Z.

(** [func (p *publisher) Publish(msg string) error] *)
Definition publisher_Publish (p : publisher) (msg : string) (w : Console)
    : option error * Console :=
  (None,
   {| stdout := (stdout w ++ line (UnixNano (clock_reads w)) (destination p) msg)%string;
      clock_reads := S (clock_reads w) |}).

(** [func NewPublisher(dest string) Publisher] *)
Definition NewPublisher (dest : string) : Publisher Console :=
  {| Publish := publisher_Publish {| destination := dest |} |}.

(** One line per destination, stamped with consecutive clock readings. *)
Fixpoint lines (k : nat) (dests : list string) (msg : string) : string :=
  match dests with
  | [] => ""
  | d :: rest => (line (UnixNano k) d msg ++ lines (S k) rest msg)%string
  end.

End Clock.

(** A publisher that never returns an error. *)
Definition never_fails {W : Type} (p : Publisher W) : Prop :=
  forall msg w, fst (Publish p msg w) = None.

End Leaf.

(** ** The callers and the host rewriting of examples/doer/main.go *)

Module Http.
Import Go.

(** How a call ends: it returns its results, or it panics (here: on the use
    of a nil pointer).  Either way the world is as the call left it. *)
Inductive outcome (A W : Type) : Type :=
  | Returns (a : A) (w : W)
  | Panics (w : W).
Arguments Returns {A W} a w.
Arguments Panics {A W} w.

(** [http.Response]: of its fields only [Body], an [io.ReadCloser] that may
    be nil, is read or written by the example. *)
Record Response (B : Type) : Type :=
  { Body : option B }.
Arguments Body {B} _.

Section Clients.
Context {Request B W : Type}.

(** An [HTTPClient] in general: its [Do] may panic. *)
Record Client : Type :=
  { call : Request -> W -> outcome (Doer.result (Response B)) W }.

(** [MockHTTPClient] with a [DoFn] that may panic. *)
Record MockHTTPClient : Type :=
  { DoFn : Request -> W -> outcome (Doer.result (Response B)) W }.

Definition Mock (c : MockHTTPClient) : Client :=
  {| call := fun req => DoFn c req |}.

(** The clients of [Doer], whose [Do] always returns. *)
Definition total (c : Doer.HTTPClient Request (Response B) W) : Client :=
  {| call := fun req w => let (r, w') := Doer.Do c req w in Returns r w' |}.

(** A client that hands back a response with a body whenever it reports no
    error. *)
Definition answers (c : Doer.HTTPClient Request (Response B) W) : Prop :=
  forall req w,
    snd (fst (Doer.Do c req w)) = None ->
    exists r b, fst (fst (Doer.Do c req w)) = Some r /\ Body r = Some b.

End Clients.

Arguments Client : clear implicits.
Arguments MockHTTPClient : clear implicits.

Section Fetching.
Context {Request B W : Type}.

(** The library calls of the example.  [NewRequest method url] is
    [http.NewRequest(method, url, nil)]; [ReadAll] is [ioutil.ReadAll];
    [NewReader s] is [ioutil.NopCloser(strings.NewReader(s))]. *)
Variable NewRequest : string -> string -> W -> (Request * option error) * W.
Variable ReadAll : B -> W -> (string * option error) * W.
Variable NewReader : string -> W -> B * W.

(** [func FromString(s string) HTTPClient] *)
Definition FromString (s : string) : Doer.HTTPClient Request (Response B) W :=
  Doer.Mock {| Doer.DoFn := fun _ w =>
    let (body, w') := NewReader s w in
    ((Some {| Body := Some body |}, None), w') |}.

(** [func FetchPageLengthUsingHTTPClient(c HTTPClient, url string) (int, error)].
    [res.Body] panics when [res] is nil, and so does [ioutil.ReadAll] on a
    nil reader. *)
Definition FetchPageLengthUsingHTTPClient
    (c : Client Request B W) (url : string) (w : W)
    : outcome (Z * option error) W :=
  let (rq, w1) := NewRequest "GET" url w in
  match snd rq with
  | Some e => Returns (0%Z, Some e) w1
  | None =>
      match call c (fst rq) w1 with
      | Panics w2 => Panics w2
      | Returns rs w2 =>
          match snd rs with
          | Some e => Returns (0%Z, Some e) w2
          | None =>
              match fst rs with
              | None => Panics w2
              | Some res =>
                  match Body res with
                  | None => Panics w2
                  | Some body =>
                      let (rd, w3) := ReadAll body w2 in
                      match snd rd with
                      | Some e => Returns (0%Z, Some e) w3
                      | None =>
                          Returns (Z.of_nat (String.length (fst rd)), None) w3
                      end
                  end
              end
          end
      end
  end.

End Fetching.

Section Rewriting.
Context {R U B V : Type}.

(** [url.URL] and [http.Request]: the fields the decorator writes, the
    pointer from a request to its URL, and the other fields as they are. *)
Record URLData : Type :=
  { URL_Host : string; URL_rest : U }.

Record RequestData : Type :=
  { Host : string; URL : option nat; rest : R }.

(** The requests and URLs that exist; a pointer is nil ([None]) or the
    position of an object. *)
Record Heap : Type :=
  { requests : list RequestData; urls : list URLData }.

Definition load {A : Type} (objects : list A) (p : option nat) : option A :=
  match p with
  | None => None
  | Some a => nth_error objects a
  end.

Fixpoint store {A : Type} (objects : list A) (a : nat) (x : A) : list A :=
  match objects, a with
  | [], _ => []
  | _ :: rest, O => x :: rest
  | y :: rest, S a' => y :: store rest a' x
  end.

(** [func RewriteHostHTTPClient(c HTTPClient, host string) HTTPClient]:
    [req.Host = host], then [req.URL.Host = host], then [c.Do(req)].  Each
    assignment goes through a pointer and panics when that pointer is nil. *)
Definition RewriteHostHTTPClient
    (c : Client (option nat) B (Heap * V)) (host : string)
    : Client (option nat) B (Heap * V) :=
  Mock {| DoFn := fun req st =>
    match req, load (requests (fst st)) req with
    | Some a, Some r =>
        let h1 := {| requests := store (requests (fst st)) a
                                   {| Host := host; URL := URL r; rest := rest r |};
                     urls := urls (fst st) |} in
        match URL r, load (urls h1) (URL r) with
        | Some b, Some u =>
            let h2 := {| requests := requests h1;
                         urls := store (urls h1) b
                                   {| URL_Host := host; URL_rest := URL_rest u |} |} in
            call c req (h2, snd st)
        | _, _ => Panics (h1, snd st)
        end
    | _, _ => Panics st
    end |}.

End Rewriting.

Arguments URLData : clear implicits.
Arguments RequestData : clear implicits.
Arguments Heap : clear implicits.

(** *** Test doubles *)

(** A client that is always down; its world counts the requests. *)
Definition down : Doer.HTTPClient string nat nat :=
  Doer.Mock {| Doer.DoFn := fun _ n => ((None, Some "down"), S n) |}.

(** A request builder that takes every URL but ["%"]. *)
Definition newRequest (method url : string) (w : nat)
    : (string * option error) * nat :=
  if String.eqb url "%"
  then (("", Some "invalid URL escape"), w)
  else ((method ++ " " ++ url, None)%string, w).

(** Bodies that are the text they hold. *)
Definition readAll (body : string) (w : nat) : (string * option error) * nat :=
  ((body, None), w).

Definition newReader (s : string) (w : nat) : string * nat := (s, w).

(** A client that reports, as its error, the two hosts of the request it is
    given. *)
Definition hosts_seen : Client (option nat) unit (Heap unit unit * nat) :=
  Mock {| DoFn := fun req st =>
    match load (requests (fst st)) req with
    | Some r =>
        match load (urls (fst st)) (URL r) with
        | Some u => Returns (None, Some (Host r ++ " " ++ URL_Host u)%string)
                            (fst st, S (snd st))
        | None => Panics st
        end
    | None => Panics st
    end |}.

(** One request, pointing at one URL. *)
Definition one_request : Heap unit unit :=
  {| requests := [{| Host := "a.example"; URL := Some 0%nat; rest := tt |}];
     urls := [{| URL_Host := "a.example"; URL_rest := tt |}] |}.

(** One request without a URL. *)
Definition no_url : Heap unit unit :=
  {| requests := [{| Host := "a.example"; URL := None; rest := tt |}];
     urls := [] |}.

End Http.

(** ** Properties of the publishers *)

Module PubProofs.
Import Go Pub.

Section Facts.
Context {W : Type}.
Implicit Types (p : Publisher W) (ps : list (Publisher W)) (w : W).
Implicit Types (msg : string) (log : list (nat * string)).

(** *** Running a caller over several inputs *)

Lemma publish_all_app {V : Type} (q : Publisher V) (xs ys : list string) (v : V) :
  publish_all q (xs ++ ys) v =
  (fst (publish_all q xs v) ++ fst (publish_all q ys (snd (publish_all q xs v))),
   snd (publish_all q ys (snd (publish_all q xs v)))).
Proof.
  revert v; induction xs as [|x xs IH]; intros v; simpl.
  - now destruct (publish_all q ys v).
  - destruct (Publish q x v) as [e v1]. rewrite IH.
    destruct (publish_all q xs v1) as [es v2]; simpl.
    now destruct (publish_all q ys v2).
Qed.

(** *** One call of the batching closure *)

Lemma batch_publish_absorb {V : Type} (q : Publisher V) batchSize buf m (v : V) :
  Z.of_nat (List.length (buf ++ [m])) <> batchSize ->
  Publish (BatchPublisher q batchSize) m (buf, v) = (None, (buf ++ [m], v)).
Proof.
  intros H; simpl. now destruct (Z.eqb_spec (Z.of_nat (List.length (buf ++ [m]))) batchSize).
Qed.

Lemma batch_publish_flush {V : Type} (q : Publisher V) batchSize buf m (v : V) :
  Z.of_nat (List.length (buf ++ [m])) = batchSize ->
  Publish (BatchPublisher q batchSize) m (buf, v) =
  (fst (Publish q (Join (buf ++ [m]) ",") v),
   (buf ++ [m], snd (Publish q (Join (buf ++ [m]) ",") v))).
Proof.
  intros H; simpl. rewrite (proj2 (Z.eqb_eq _ _) H).
  now destruct (Publish q (Join (buf ++ [m]) ",") v).
Qed.

(** While no call brings the buffer to [batchSize] elements, every input is
    kept and nothing reaches the inner publisher. *)
Lemma batch_absorbs {V : Type} (q : Publisher V) batchSize inputs buf (v : V) :
  (forall j, (1 <= j <= List.length inputs)%nat ->
             Z.of_nat (List.length buf + j) <> batchSize) ->
  publish_all (BatchPublisher q batchSize) inputs (buf, v) =
  (repeat None (List.length inputs), (buf ++ inputs, v)).
Proof.
  revert buf; induction inputs as [|m inputs IH]; intros buf H.
  - simpl. now rewrite app_nil_r.
  - cbn [publish_all]. rewrite batch_publish_absorb.
    + rewrite IH.
      * simpl. now rewrite <- app_assoc.
      * intros j Hj. rewrite length_app; simpl.
        replace (List.length buf + 1 + j)%nat with (List.length buf + S j)%nat by lia.
        apply H; simpl; lia.
    + rewrite length_app; simpl. apply H; simpl; lia.
Qed.

(** *** The loop of [MultiPublisher] *)

Lemma reply_at_cons p ps msg w i :
  reply_at (p :: ps) msg w (S i) = reply_at ps msg (snd (Publish p msg w)) i.
Proof. reflexivity. Qed.

Lemma range_publish_spies ps : forall from msg log w,
  exists k : nat,
    (k <= List.length ps)%nat /\
    snd (range_publish (spies from ps) msg (log, w)) =
      (log ++ map (fun i => (i, msg)) (seq from k), world_after (firstn k ps) msg w) /\
    range_publish ps msg w =
      (fst (range_publish (spies from ps) msg (log, w)), world_after (firstn k ps) msg w) /\
    (forall i, (S i < k)%nat -> reply_at ps msg w i = None) /\
    match fst (range_publish (spies from ps) msg (log, w)) with
    | None => k = List.length ps /\ forall i, (i < k)%nat -> reply_at ps msg w i = None
    | Some e => exists j, k = S j /\ reply_at ps msg w j = Some e
    end.
Proof.
  induction ps as [|p ps IH]; intros from msg log w.
  - exists O; simpl. rewrite app_nil_r. repeat split; intros; lia.
  - cbn [spies range_publish]. cbn [spy Mock Publish PublishFn fst snd].
    destruct (Publish p msg w) as [err w'] eqn:Hp.
    destruct err as [e|].
    + exists 1%nat; cbn [fst snd firstn world_after seq map List.length].
      rewrite Hp; cbn [snd].
      repeat split; try lia.
      exists O; split; [reflexivity|]. unfold reply_at; simpl. now rewrite Hp.
    + destruct (IH (S from) msg (log ++ [(from, msg)]) w')
        as (k & Hk & Hlog & Hraw & Hbefore & Hlast).
      assert (Hw : w' = snd (Publish p msg w)) by now rewrite Hp.
      exists (S k); cbn [firstn world_after seq map List.length].
      rewrite <- Hw.
      split; [lia|].
      split; [etransitivity; [exact Hlog|]; now rewrite <- app_assoc|].
      split; [exact Hraw|].
      assert (H0 : reply_at (p :: ps) msg w 0 = None)
        by (unfold reply_at; simpl; now rewrite Hp).
      split.
      * intros [|i] Hi; [exact H0|].
        rewrite reply_at_cons, <- Hw. apply Hbefore; lia.
      * destruct (fst (range_publish (spies (S from) ps) msg (log ++ [(from, msg)], w')))
          as [e|].
        -- destruct Hlast as (j & -> & Hj). exists (S j); split; [reflexivity|].
           now rewrite reply_at_cons, <- Hw.
        -- destruct Hlast as (-> & Hall). split; [reflexivity|].
           intros [|i] Hi; [exact H0|].
           rewrite reply_at_cons, <- Hw. apply Hall; lia.
Qed.

(** C3.  [MultiPublisher(ps...).Publish(msg)] calls the first [k] publishers
    of [ps], in the order of [ps], each once with [msg], and no other: the
    log of the spies grows by [(0,msg) ... (k-1,msg)].  When the returned
    error is nil, [k] is the number of publishers and all of them answered
    nil; when it is [e], publisher [k-1] is the first one that did not answer
    nil, and [e] is its answer.  Spying does not change the result. *)
Theorem multi_publisher_stops_at_first_error ps msg log w :
  exists k : nat,
    (k <= List.length ps)%nat /\
    snd (Publish (MultiPublisher (spies 0 ps)) msg (log, w)) =
      (log ++ map (fun i => (i, msg)) (seq 0 k), world_after (firstn k ps) msg w) /\
    Publish (MultiPublisher ps) msg w =
      (fst (Publish (MultiPublisher (spies 0 ps)) msg (log, w)),
       world_after (firstn k ps) msg w) /\
    (forall i, (S i < k)%nat -> reply_at ps msg w i = None) /\
    match fst (Publish (MultiPublisher (spies 0 ps)) msg (log, w)) with
    | None => k = List.length ps /\ forall i, (i < k)%nat -> reply_at ps msg w i = None
    | Some e => exists j, k = S j /\ reply_at ps msg w j = Some e
    end.
Proof. exact (range_publish_spies ps 0%nat msg log w). Qed.

(** C10.  A [MultiPublisher] over no publisher answers nil to every message
    and leaves the world as it was. *)
Theorem multi_publisher_empty msg w :
  Publish (MultiPublisher (@nil (Publisher W))) msg w = (None, w).
Proof. reflexivity. Qed.

(** *** [TransformPublisher] *)

(** C6.  [TransformPublisher(p, tfn).Publish(msg)] is one call
    [p.Publish(tfn(msg))]: same returned error, same effect, and a spy on [p]
    logs the single message [tfn(msg)].  With [strings.ToUpper] as the
    transform, ["hello"] reaches the inner publisher as ["HELLO"]. *)
Theorem transform_publisher_delegates p (tfn : TransformFunc) msg log w :
  Publish (TransformPublisher p tfn) msg w = Publish p (tfn msg) w /\
  Publish (TransformPublisher (spy 0 p) tfn) msg (log, w) =
    (fst (Publish p (tfn msg) w),
     (log ++ [(0%nat, tfn msg)], snd (Publish p (tfn msg) w))) /\
  snd (Publish (TransformPublisher (spy 0 p) ToUpper) "hello" (log, w)) =
    (log ++ [(0%nat, "HELLO")], snd (Publish p "HELLO" w)).
Proof.
  split; [reflexivity|].
  unfold TransformPublisher, spy, Mock; cbn [Publish PublishFn fst snd].
  change (ToUpper "hello") with "HELLO".
  split.
  - now destruct (Publish p (tfn msg) w).
  - now destruct (Publish p "HELLO" w).
Qed.

(** C7.  With the identity as transform the decorator cannot be told from
    the publisher it wraps: the caller gets the same error and the same
    world, and a spy on the inner publisher logs the same message. *)
Theorem transform_publisher_identity p msg log w :
  Publish (TransformPublisher p (fun m => m)) msg w = Publish p msg w /\
  Publish (TransformPublisher (spy 0 p) (fun m => m)) msg (log, w) =
    Publish (spy 0 p) msg (log, w).
Proof. split; reflexivity. Qed.

(** *** [BatchPublisher] *)

(** The call that brings a fresh buffer to [batchSize] elements. *)
Lemma batch_first_flush {V : Type} (q : Publisher V) pre last (v : V) :
  publish_all (BatchPublisher q (Z.of_nat (List.length (pre ++ [last]))))
              (pre ++ [last]) (fresh v) =
  (repeat None (List.length pre) ++ [fst (Publish q (Join (pre ++ [last]) ",") v)],
   (pre ++ [last], snd (Publish q (Join (pre ++ [last]) ",") v))).
Proof.
  rewrite publish_all_app. unfold fresh.
  rewrite batch_absorbs.
  - cbn [fst snd publish_all app]. now rewrite batch_publish_flush.
  - intros j Hj. rewrite length_app; simpl. lia.
Qed.

(** The buffer of the decorator holds every message it was ever given. *)
Lemma batch_buffer_is_history {V : Type} (q : Publisher V) batchSize inputs st :
  fst (snd (publish_all (BatchPublisher q batchSize) inputs st)) = fst st ++ inputs.
Proof.
  revert st; induction inputs as [|m inputs IH]; intros st.
  - simpl. now rewrite app_nil_r.
  - cbn [publish_all].
    destruct (Publish (BatchPublisher q batchSize) m st) as [e st1] eqn:H1.
    specialize (IH st1).
    destruct (publish_all (BatchPublisher q batchSize) inputs st1) as [es st2].
    cbn [fst snd] in *. rewrite IH.
    assert (Hst1 : fst st1 = fst st ++ [m]).
    { revert H1; simpl.
      destruct (Z.of_nat (List.length (fst st ++ [m])) =? batchSize)%Z.
      - destruct (Publish q _ (snd st)); now intros [= _ <-].
      - now intros [= _ <-]. }
    now rewrite Hst1, <- app_assoc.
Qed.

Lemma reachable_publish_all {V : Type} (q : Publisher V) batchSize inputs st :
  reachable q batchSize st ->
  reachable q batchSize (snd (publish_all (BatchPublisher q batchSize) inputs st)).
Proof.
  revert st; induction inputs as [|m inputs IH]; intros st Hst; [exact Hst|].
  cbn [publish_all].
  destruct (Publish (BatchPublisher q batchSize) m st) as [e st1] eqn:H1.
  specialize (IH st1).
  destruct (publish_all (BatchPublisher q batchSize) inputs st1) as [es st2].
  cbn [snd] in *. apply IH.
  replace st1 with (snd (Publish (BatchPublisher q batchSize) m st)) by now rewrite H1.
  now constructor.
Qed.

(** C5.  A freshly built [BatchPublisher] with threshold [N], given [N]
    inputs [pre ++ [last]]: the first [N-1] calls return nil and leave the
    world of the inner publisher untouched; the [N]-th call is one call of
    the inner publisher with the inputs joined by [","] in call order and
    returns what that call returns; a spy on the inner publisher logs that
    one message.  For ["a"], ["b"], ["c"] and [N = 3] the one message is
    ["a,b,c"]. *)
Theorem batch_publisher_first_batch p pre last log w :
  publish_all (BatchPublisher p (Z.of_nat (List.length (pre ++ [last])))) pre (fresh w)
    = (repeat None (List.length pre), (pre, w)) /\
  Publish (BatchPublisher p (Z.of_nat (List.length (pre ++ [last])))) last (pre, w)
    = (fst (Publish p (Join (pre ++ [last]) ",") w),
       (pre ++ [last], snd (Publish p (Join (pre ++ [last]) ",") w))) /\
  publish_all (BatchPublisher (spy 0 p) (Z.of_nat (List.length (pre ++ [last]))))
              (pre ++ [last]) (fresh (log, w))
    = (repeat None (List.length pre) ++ [fst (Publish p (Join (pre ++ [last]) ",") w)],
       (pre ++ [last],
        (log ++ [(0%nat, Join (pre ++ [last]) ",")],
         snd (Publish p (Join (pre ++ [last]) ",") w)))) /\
  publish_all (BatchPublisher (recorder (fun _ => None)) 3) ["a"; "b"; "c"] (fresh [])
    = ([None; None; None], (["a"; "b"; "c"], ["a,b,c"])).
Proof.
  split; [|split; [|split]].
  - unfold fresh. rewrite batch_absorbs; [reflexivity|].
    intros j Hj. rewrite length_app; simpl. lia.
  - now apply batch_publish_flush.
  - rewrite batch_first_flush. simpl.
    now destruct (Publish p (Join (pre ++ [last]) ",") w).
  - reflexivity.
Qed.

(** C9.  With a threshold [N >= 1], once [N] inputs [first] were published
    (the call that flushes), every later call returns nil, is appended to
    the buffer, and leaves the inner publisher's world as the flush left it;
    over any sequence of calls a spy on the inner publisher logs at most one
    call. *)
Theorem batch_publisher_flushes_once p N first more w :
  (1 <= N)%Z ->
  Z.of_nat (List.length first) = N ->
  publish_all (BatchPublisher p N) more
              (snd (publish_all (BatchPublisher p N) first (fresh w)))
    = (repeat None (List.length more),
       (first ++ more, snd (Publish p (Join first ",") w))) /\
  forall inputs log, exists l,
    fst (snd (snd (publish_all (BatchPublisher (spy 0 p) N) inputs (fresh (log, w)))))
      = log ++ l /\
    (List.length l <= 1)%nat.
Proof.
  intros HN Hlen. split.
  - destruct (exists_last (l := first)) as (pre & last & ->);
      [intros ->; simpl in Hlen; lia|].
    rewrite <- Hlen, batch_first_flush. cbn [snd].
    rewrite batch_absorbs; [reflexivity|]. intros j Hj. lia.
  - intros inputs log.
    destruct (le_lt_dec (Z.to_nat N) (List.length inputs)) as [Hge|Hlt].
    + rewrite <- (firstn_skipn (Z.to_nat N) inputs).
      assert (Hf : List.length (firstn (Z.to_nat N) inputs) = Z.to_nat N)
        by (rewrite length_firstn; lia).
      destruct (exists_last (l := firstn (Z.to_nat N) inputs)) as (pre & last & Hpl);
        [intros E; rewrite E in Hf; simpl in Hf; lia|].
      rewrite Hpl in *.
      replace N with (Z.of_nat (List.length (pre ++ [last]))) by lia.
      rewrite publish_all_app, batch_first_flush. cbn [snd].
      rewrite batch_absorbs by (intros j Hj; lia). cbn [snd fst].
      exists [(0%nat, Join (pre ++ [last]) ",")]. split; [|simpl; lia].
      simpl. now destruct (Publish p (Join (pre ++ [last]) ",") w).
    + exists []. unfold fresh. rewrite batch_absorbs by (intros j Hj; simpl; lia).
      simpl. rewrite app_nil_r. split; [reflexivity|lia].
Qed.

(** C1 (what the code does instead).  The closure appends to [msgs] and
    never shortens it: after any sequence of calls the buffer is the whole
    sequence, whatever the threshold.  With threshold 1 and the inputs
    ["a"], ["b"] the decorator reaches a state whose buffer has two
    elements, and the second message was never forwarded. *)
Theorem batch_buffer_outgrows_threshold p batchSize inputs w :
  reachable p batchSize (snd (publish_all (BatchPublisher p batchSize) inputs (fresh w))) /\
  fst (snd (publish_all (BatchPublisher p batchSize) inputs (fresh w))) = inputs /\
  publish_all (BatchPublisher (recorder (fun _ => None)) 1) ["a"; "b"] (fresh [])
    = ([None; None], (["a"; "b"], ["a"])) /\
  exists st, reachable (recorder (fun _ => None)) 1 st /\
             (1 < Z.of_nat (List.length (fst st)))%Z.
Proof.
  split; [apply reachable_publish_all; constructor|].
  split; [now rewrite batch_buffer_is_history|].
  split; [reflexivity|].
  exists (snd (publish_all (BatchPublisher (recorder (fun _ => None)) 1)
                           ["a"; "b"] (fresh []))).
  split; [apply reachable_publish_all; constructor|].
  simpl. lia.
Qed.

End Facts.

(** The witness of C9: threshold 2, inputs ["a"], ["b"], then ["c"], ["d"]. *)
Lemma batch_publisher_flushes_once_witness :
  (1 <= 2)%Z /\
  Z.of_nat (List.length ["a"; "b"]) = 2%Z /\
  publish_all (BatchPublisher (recorder (fun _ => None)) 2) ["c"; "d"]
    (snd (publish_all (BatchPublisher (recorder (fun _ => None)) 2) ["a"; "b"] (fresh [])))
  = ([None; None], (["a"; "b"; "c"; "d"], ["a,b"])).
Proof.
  split; [lia|]. split; [reflexivity|].
  exact (proj1 (batch_publisher_flushes_once (recorder (fun _ => None)) 2
                  ["a"; "b"] ["c"; "d"] []
                  ltac:(lia) ltac:(reflexivity))).
Defined.

End PubProofs.

(** ** Properties of the HTTP clients *)

Module DoerProofs.
Import Go Doer.

Section Facts.
Context {Request Response W : Type}.
Implicit Types (c : HTTPClient Request Response W) (req : Request) (w : W).
Implicit Types (log : list Request).

Lemma attempt_succ c req k w :
  attempt c req (S k) w = attempt c req k (snd (Do c req w)).
Proof. reflexivity. Qed.

Lemma do_spy c req log w :
  Do (spy c) req (log, w) = (fst (Do c req w), (log ++ [req], snd (Do c req w))).
Proof. simpl. now destruct (Do c req w). Qed.

(** The loop, entered with at least one iteration left, makes [S j]
    attempts: [j] failures and then either a success, or the last allowed
    attempt. *)
Lemma retry_loop_spied c req : forall remaining err0 log w,
  exists j : nat,
    (j < S remaining)%nat /\
    snd (retry_loop (spy c) req (S remaining) err0 (log, w)) =
      (log ++ repeat req (S j), after_attempts c req (S j) w) /\
    retry_loop c req (S remaining) err0 w =
      (fst (retry_loop (spy c) req (S remaining) err0 (log, w)),
       after_attempts c req (S j) w) /\
    (forall i, (i < j)%nat -> snd (attempt c req i w) <> None) /\
    match snd (attempt c req j w) with
    | None =>
        fst (retry_loop (spy c) req (S remaining) err0 (log, w)) =
          (fst (attempt c req j w), None)
    | Some e =>
        j = remaining /\
        fst (retry_loop (spy c) req (S remaining) err0 (log, w)) = (None, Some e)
    end.
Proof.
  induction remaining as [|n IH]; intros err0 log w.
  - exists O. cbn [retry_loop]. unfold attempt; cbn [after_attempts repeat].
    unfold spy; cbn [Mock Do DoFn fst snd].
    destruct (Do c req w) as [[res err] w']; cbn [fst snd].
    split; [lia|]. split; [now destruct err|]. split; [now destruct err|].
    split; [intros i Hi; lia|]. now destruct err.
  - change (retry_loop (spy c) req (S (S n)) err0 (log, w)) with
      (let (r, st) := Do (spy c) req (log, w) in
       match snd r with
       | Some e => retry_loop (spy c) req (S n) (Some e) st
       | None => ((fst r, None), st)
       end).
    change (retry_loop c req (S (S n)) err0 w) with
      (let (r, w') := Do c req w in
       match snd r with
       | Some e => retry_loop c req (S n) (Some e) w'
       | None => ((fst r, None), w')
       end).
    rewrite !do_spy.
    destruct (Do c req w) as [[res err] w'] eqn:Hdo; cbn [fst snd].
    assert (Hw : w' = snd (Do c req w)) by now rewrite Hdo.
    assert (H0 : attempt c req 0 w = (res, err)) by (unfold attempt; simpl; now rewrite Hdo).
    destruct err as [e|].
    + destruct (IH (Some e) (log ++ [req]) w') as (j & Hj & Hlog & Hraw & Hfail & Hlast).
      exists (S j). split; [lia|].
      split.
      { etransitivity; [exact Hlog|]. cbn [after_attempts repeat].
        now rewrite <- Hw, <- app_assoc. }
      split.
      { etransitivity; [exact Hraw|]. cbn [after_attempts]. now rewrite <- Hw. }
      split.
      { intros [|i] Hi; [now rewrite H0|].
        rewrite attempt_succ, <- Hw. apply Hfail; lia. }
      rewrite attempt_succ, <- Hw.
      destruct (snd (attempt c req j w')) as [e'|].
      * destruct Hlast as [-> Hres]. split; [reflexivity|exact Hres].
      * exact Hlast.
    + exists O. cbn [after_attempts repeat]. rewrite <- Hw, H0; cbn [fst snd].
      split; [lia|]. split; [reflexivity|]. split; [reflexivity|].
      split; [intros i Hi; lia|reflexivity].
Qed.

(** C4.  With [retries = R > 0], [RetryHTTPClient(c, R).Do(req)] makes
    [k] calls [c.Do(req)] one after the other, with [1 <= k <= R]: a spy on
    [c] logs [req] exactly [k] times.  The first [k-1] attempts failed.  If
    attempt [k] has a nil error, its response is returned with a nil error
    (and no attempt follows); otherwise [k = R] and a nil response is
    returned with the error of attempt [R].  Spying does not change the
    result. *)
Theorem retry_client_attempts c req retries log w :
  (0 < retries)%Z ->
  exists k : nat,
    (1 <= k)%nat /\ (Z.of_nat k <= retries)%Z /\
    snd (Do (RetryHTTPClient (spy c) retries) req (log, w)) =
      (log ++ repeat req k, after_attempts c req k w) /\
    Do (RetryHTTPClient c retries) req w =
      (fst (Do (RetryHTTPClient (spy c) retries) req (log, w)),
       after_attempts c req k w) /\
    (forall i, (S i < k)%nat -> snd (attempt c req i w) <> None) /\
    match snd (attempt c req (k - 1) w) with
    | None =>
        fst (Do (RetryHTTPClient (spy c) retries) req (log, w)) =
          (fst (attempt c req (k - 1) w), None)
    | Some e =>
        Z.of_nat k = retries /\
        fst (Do (RetryHTTPClient (spy c) retries) req (log, w)) = (None, Some e)
    end.
Proof.
  intros HR.
  unfold RetryHTTPClient; cbn [Mock Do DoFn].
  destruct (Z.to_nat retries) as [|n] eqn:Hn; [lia|].
  destruct (retry_loop_spied c req n None log w)
    as (j & Hj & Hlog & Hraw & Hfail & Hlast).
  exists (S j). replace (S j - 1)%nat with j by lia.
  split; [lia|]. split; [lia|]. split; [exact Hlog|]. split; [exact Hraw|].
  split; [intros i Hi; apply Hfail; lia|].
  destruct (snd (attempt c req j w)) as [e|]; [|exact Hlast].
  destruct Hlast as [-> Hres]. split; [lia|exact Hres].
Qed.

(** C8.  With [retries = 0] the loop body never runs: [Do] returns a nil
    response and a nil error, the world is as before, and a spy on the inner
    client logs nothing. *)
Theorem retry_client_zero_retries c req log w :
  Do (RetryHTTPClient c 0) req w = ((None, None), w) /\
  Do (RetryHTTPClient (spy c) 0) req (log, w) = ((None, None), (log, w)).
Proof. split; reflexivity. Qed.

End Facts.

(** The witness of C4: three retries over a client that fails twice. *)
Lemma retry_client_attempts_witness :
  (0 < 3)%Z /\
  exists k : nat,
    (1 <= k)%nat /\ (Z.of_nat k <= 3)%Z /\
    snd (Do (RetryHTTPClient (spy (flaky 2)) 3) "GET /" ([], 0%nat)) =
      ([] ++ repeat "GET /" k, after_attempts (flaky 2) "GET /" k 0%nat) /\
    Do (RetryHTTPClient (flaky 2) 3) "GET /" 0%nat =
      (fst (Do (RetryHTTPClient (spy (flaky 2)) 3) "GET /" ([], 0%nat)),
       after_attempts (flaky 2) "GET /" k 0%nat) /\
    (forall i, (S i < k)%nat -> snd (attempt (flaky 2) "GET /" i 0%nat) <> None) /\
    match snd (attempt (flaky 2) "GET /" (k - 1) 0%nat) with
    | None =>
        fst (Do (RetryHTTPClient (spy (flaky 2)) 3) "GET /" ([], 0%nat)) =
          (fst (attempt (flaky 2) "GET /" (k - 1) 0%nat), None)
    | Some e =>
        Z.of_nat k = 3%Z /\
        fst (Do (RetryHTTPClient (spy (flaky 2)) 3) "GET /" ([], 0%nat)) = (None, Some e)
    end.
Proof.
  split; [lia|].
  apply (retry_client_attempts (flaky 2) "GET /" 3 [] 0%nat). lia.
Defined.

(** Three retries over a client that fails twice and then answers: three
    requests are made and the third answer is returned. *)
Example retry_three_fails_twice :
  Do (RetryHTTPClient (spy (flaky 2)) 3) "GET /" ([], 0%nat) =
  ((Some 200%nat, None), (["GET /"; "GET /"; "GET /"], 3%nat)).
Proof. reflexivity. Qed.

(** Two retries over a client that always fails: two requests are made and
    the error of the second one is returned. *)
Example retry_two_always_fails :
  Do (RetryHTTPClient (spy (flaky 5)) 2) "GET /" ([], 0%nat) =
  ((None, Some "down 1"), (["GET /"; "GET /"], 2%nat)).
Proof. reflexivity. Qed.

End DoerProofs.

(** ** Configuration values of zero, and the examples of the specification *)

Module Configuration.
Import Go.

(** Three publishers of which the second fails: the first two are called,
    the third is not, and the error is the second one's. *)
Example multi_publisher_second_fails :
  Pub.Publish (Pub.MultiPublisher (Pub.spies 0 [Pub.mp; Pub.errp; Pub.mp])) "test" ([], []) =
  (Some "failed to send msg: test",
   ([(0%nat, "test"); (1%nat, "test")], ["test"; "test"])).
Proof. reflexivity. Qed.

(** C2 (as stated, refuted).  Neither [RetryHTTPClient(c, 0)] nor
    [BatchPublisher(p, 0)] is rejected: both calls hand back a decorator,
    which then answers nil to a request, respectively to a message, without
    reaching the wrapped implementer. *)
Lemma zero_configuration_is_not_rejected :
  ~ ((exists reason, Doer.NewRetryHTTPClient (Doer.flaky 0) 0 = Rejected reason) \/
     (exists reason, Pub.NewBatchPublisher Pub.mp 0 = Rejected reason)) /\
  Doer.Do (Doer.RetryHTTPClient (Doer.spy (Doer.flaky 0)) 0) "GET /" ([], 0%nat)
    = ((None, None), ([], 0%nat)) /\
  Pub.publish_all (Pub.BatchPublisher Pub.mp 0) ["a"] (Pub.fresh [])
    = ([None], (["a"], [])).
Proof.
  split; [|split; reflexivity].
  intros [[reason H]|[reason H]]; discriminate H.
Qed.

(** C2 (amended).  The constructors take every configuration value: with
    zero retries, or a zero batch size, they return the decorator all the
    same.  With zero retries [Do] returns a nil response and a nil error and
    the wrapped client is not called; with a zero batch size every message
    is kept in the buffer, [Publish] returns nil, and the wrapped publisher
    is never called. *)
Theorem zero_configuration_is_constructed
    {Request Response V W : Type}
    (c : Doer.HTTPClient Request Response V) (req : Request) (v : V)
    (p : Pub.Publisher W) (inputs : list string) (w : W) :
  Doer.NewRetryHTTPClient c 0 = Constructed (Doer.RetryHTTPClient c 0) /\
  Doer.Do (Doer.RetryHTTPClient c 0) req v = ((None, None), v) /\
  Pub.NewBatchPublisher p 0 = Constructed (Pub.BatchPublisher p 0) /\
  Pub.publish_all (Pub.BatchPublisher p 0) inputs (Pub.fresh w)
    = (repeat None (List.length inputs), (inputs, w)).
Proof.
  repeat split. unfold Pub.fresh.
  rewrite PubProofs.batch_absorbs; [reflexivity|].
  intros j Hj; simpl; lia.
Qed.

End Configuration.

(** ** Further properties of the publishers *)

Module PubMore.
Import Go Pub Leaf.

Section Facts.
Context {W : Type}.
Implicit Types (p : Publisher W) (ps : list (Publisher W)) (w : W).
Implicit Types (msg : string).

Lemma range_publish_app ps qs msg w :
  range_publish (ps ++ qs) msg w =
  match fst (range_publish ps msg w) with
  | Some e => range_publish ps msg w
  | None => range_publish qs msg (snd (range_publish ps msg w))
  end.
Proof.
  revert w; induction ps as [|p ps IH]; intros w; [reflexivity|].
  cbn [app range_publish].
  destruct (Publish p msg w) as [[e|] w']; [reflexivity|apply IH].
Qed.

(** X1.  Nesting [MultiPublisher]s changes nothing: a [MultiPublisher] over
    [MultiPublisher]s acts as one [MultiPublisher] over all their publishers
    in order, and a [MultiPublisher] over a single publisher acts as that
    publisher. *)
Theorem multi_publisher_flattens (pss : list (list (Publisher W))) p msg w :
  Publish (MultiPublisher (map MultiPublisher pss)) msg w =
    Publish (MultiPublisher (List.concat pss)) msg w /\
  Publish (MultiPublisher [p]) msg w = Publish p msg w.
Proof.
  split.
  - cbn [MultiPublisher Mock Publish PublishFn].
    revert w; induction pss as [|ps pss IH]; intros w; [reflexivity|].
    cbn [map List.concat range_publish]. rewrite range_publish_app.
    cbn [MultiPublisher Mock Publish PublishFn].
    destruct (range_publish ps msg w) as [[e|] w']; [reflexivity|apply IH].
  - simpl. now destruct (Publish p msg w) as [[e|] w'].
Qed.

(** X2.  A transform in front of a [MultiPublisher] is the same as that
    transform in front of each of its publishers; two transforms in a row
    apply the outer one first. *)
Theorem transform_distributes_over_multi ps p (f g : TransformFunc) msg w :
  Publish (TransformPublisher (MultiPublisher ps) f) msg w =
    Publish (MultiPublisher (map (fun q => TransformPublisher q f) ps)) msg w /\
  Publish (TransformPublisher (TransformPublisher p f) g) msg w =
    Publish p (f (g msg)) w.
Proof.
  split; [|reflexivity].
  cbn [TransformPublisher MultiPublisher Mock Publish PublishFn].
  revert w; induction ps as [|q ps IH]; intros w; [reflexivity|].
  cbn [map range_publish TransformPublisher Mock Publish PublishFn].
  destruct (Publish q (f msg) w) as [[e|] w']; [reflexivity|apply IH].
Qed.

Lemma range_publish_never_fails ps msg w :
  Forall never_fails ps ->
  range_publish ps msg w = (None, world_after ps msg w).
Proof.
  intros H; revert w; induction H as [|p ps Hp _ IH]; intros w; [reflexivity|].
  cbn [range_publish world_after]. specialize (Hp msg w).
  destruct (Publish p msg w) as [err w']; cbn [fst snd] in *. subst err. apply IH.
Qed.

(** X3.  The decorators bring no errors of their own: over publishers that
    never fail, [TransformPublisher], [MultiPublisher] and [BatchPublisher]
    never fail either, and [MultiPublisher] then reaches every one of its
    publishers. *)
Theorem decorators_over_reliable_publishers p ps (f : TransformFunc) batchSize msg w :
  never_fails p ->
  Forall never_fails ps ->
  never_fails (TransformPublisher p f) /\
  never_fails (MultiPublisher ps) /\
  never_fails (BatchPublisher p batchSize) /\
  Publish (MultiPublisher ps) msg w = (None, world_after ps msg w).
Proof.
  intros Hp Hps. repeat split.
  - intros m v. apply Hp.
  - intros m v. cbn [MultiPublisher Mock Publish PublishFn].
    now rewrite range_publish_never_fails.
  - intros m st. cbn [BatchPublisher Mock Publish PublishFn].
    destruct (Z.of_nat (List.length (fst st ++ [m])) =? batchSize)%Z; [|reflexivity].
    specialize (Hp (Join (fst st ++ [m]) ",") (snd st)).
    now destruct (Publish p (Join (fst st ++ [m]) ",") (snd st)).
  - cbn [MultiPublisher Mock Publish PublishFn].
    now rewrite range_publish_never_fails.
Qed.

(** X4.  While fewer than [batchSize] messages were given to a fresh
    [BatchPublisher], or when [batchSize] is zero or negative, nothing is
    forwarded: every call returns nil, the messages stay in the buffer, and
    a spy on the inner publisher logs no call. *)
Theorem batch_publisher_below_threshold p batchSize inputs
    (log : list (nat * string)) w :
  (Z.of_nat (List.length inputs) < batchSize \/ batchSize <= 0)%Z ->
  publish_all (BatchPublisher (spy 0 p) batchSize) inputs (fresh (log, w)) =
  (repeat None (List.length inputs), (inputs, (log, w))).
Proof.
  intros H. unfold fresh. rewrite PubProofs.batch_absorbs; [reflexivity|].
  intros j Hj; simpl. lia.
Qed.

End Facts.

Section LeafFacts.
Variable UnixNano : nat -> Z.

Lemma leaf_never_fails dest : never_fails (NewPublisher UnixNano dest).
Proof. intros msg w; reflexivity. Qed.

Lemma string_app_assoc (a b c : string) : ((a ++ b) ++ c = a ++ (b ++ c))%string.
Proof. induction a as [|x a IH]; simpl; [reflexivity|now rewrite IH]. Qed.

Lemma string_app_nil_r (a : string) : (a ++ "" = a)%string.
Proof. induction a as [|x a IH]; simpl; [reflexivity|now rewrite IH]. Qed.

(** X5.  A [MultiPublisher] over leaf publishers returns nil and writes, for
    each destination in order, one line with that destination, the message
    and the next reading of the clock. *)
Theorem multi_publisher_over_leaves dests msg w :
  Publish (MultiPublisher (map (NewPublisher UnixNano) dests)) msg w =
  (None,
   {| stdout := (stdout w ++ lines UnixNano (clock_reads w) dests msg)%string;
      clock_reads := clock_reads w + List.length dests |}).
Proof.
  cbn [MultiPublisher Mock Publish PublishFn].
  revert w; induction dests as [|d dests IH]; intros [out k].
  - simpl. now rewrite string_app_nil_r, Nat.add_0_r.
  - cbn [map range_publish NewPublisher Publish publisher_Publish
         stdout clock_reads destination lines List.length].
    rewrite IH. cbn [stdout clock_reads].
    now rewrite string_app_assoc, Nat.add_succ_r.
Qed.

End LeafFacts.

(** The witness of X3: the recording publisher of [main] never fails. *)
Lemma decorators_over_reliable_publishers_witness :
  never_fails mp /\
  Forall never_fails [mp; mp] /\
  Publish (MultiPublisher [mp; mp]) "test" [] = (None, ["test"; "test"]).
Proof.
  assert (H : never_fails mp) by (intros msg w; reflexivity).
  split; [exact H|]. split; [repeat constructor; exact H|].
  exact (proj2 (proj2 (proj2
    (decorators_over_reliable_publishers mp [mp; mp] (fun m => m) 3 "test" []
       H (Forall_cons _ H (Forall_cons _ H (Forall_nil _))))))).
Defined.

(** The witness of X4: two messages, threshold three. *)
Lemma batch_publisher_below_threshold_witness :
  (Z.of_nat (List.length ["a"; "b"]) < 3 \/ 3 <= 0)%Z /\
  publish_all (BatchPublisher (spy 0 mp) 3) ["a"; "b"] (fresh ([], [])) =
  ([None; None], (["a"; "b"], ([], []))).
Proof.
  split; [left; simpl; lia|].
  apply (batch_publisher_below_threshold mp 3 ["a"; "b"] [] []).
  left; simpl; lia.
Defined.

End PubMore.

(** ** Further properties of the HTTP clients *)

Module DoerMore.
Import Go Doer.

Section Facts.
Context {Request Response W : Type}.
Implicit Types (c : HTTPClient Request Response W) (req : Request) (w : W).
Implicit Types (log : list Request).

(** What the loop can hand back: a nil response with the error it was
    entered with or with an error of [c], or a response of [c] that came
    with a nil error. *)
Lemma retry_loop_result c req : forall remaining err0 w,
  (fst (fst (retry_loop c req remaining err0 w)) = None \/
   snd (fst (retry_loop c req remaining err0 w)) = None) /\
  (forall e, snd (fst (retry_loop c req remaining err0 w)) = Some e ->
     err0 = Some e \/ exists w0, snd (fst (Do c req w0)) = Some e) /\
  (snd (fst (retry_loop c req remaining err0 w)) = None ->
     (remaining = O /\ err0 = None) \/
     exists w0, fst (Do c req w0) = (fst (fst (retry_loop c req remaining err0 w)), None)).
Proof.
  induction remaining as [|n IH]; intros err0 w.
  - simpl. repeat split; auto.
  - cbn [retry_loop].
    destruct (Do c req w) as [[res err] w'] eqn:Hdo; cbn [fst snd].
    destruct err as [e|].
    + destruct (IH (Some e) w') as (Hshape & Herr & Hok). split; [exact Hshape|]. split.
      * intros e' He'. right. destruct (Herr e' He') as [[= ->]|Hw0]; [|exact Hw0].
        exists w. now rewrite Hdo.
      * intros Hnone. right. destruct (Hok Hnone) as [[_ [=]]|Hw0]. exact Hw0.
    + cbn [fst snd]. split; [now right|]. split; [intros e [=]|].
      intros _. right. exists w. now rewrite Hdo.
Qed.

(** X6.  [RetryHTTPClient] never returns a response together with an error;
    an error it returns is an error the wrapped client returned, and a
    response it returns was returned by the wrapped client with a nil
    error. *)
Theorem retry_client_result_shape c retries req w :
  (fst (fst (Do (RetryHTTPClient c retries) req w)) = None \/
   snd (fst (Do (RetryHTTPClient c retries) req w)) = None) /\
  (forall e, snd (fst (Do (RetryHTTPClient c retries) req w)) = Some e ->
     exists w0, snd (fst (Do c req w0)) = Some e) /\
  (forall r, fst (fst (Do (RetryHTTPClient c retries) req w)) = Some r ->
     exists w0, fst (Do c req w0) = (Some r, None)).
Proof.
  cbn [RetryHTTPClient Mock Do DoFn].
  destruct (retry_loop_result c req (Z.to_nat retries) None w) as (Hshape & Herr & Hok).
  split; [exact Hshape|]. split.
  - intros e He. now destruct (Herr e He) as [[=]|Hw0].
  - intros r Hr. destruct Hshape as [Hn|Hn]; [congruence|].
    destruct (Hok Hn) as [[Hz _]|(w0 & Hw0)].
    + rewrite Hz in Hr. discriminate Hr.
    + exists w0. now rewrite Hw0, Hr.
Qed.

(** The requests one run of the loop sends to a spied client. *)
Lemma retry_loop_requests c req : forall remaining err0 log w,
  exists k : nat,
    (k <= remaining)%nat /\
    fst (snd (retry_loop (spy c) req remaining err0 (log, w))) = log ++ repeat req k /\
    ((forall r v, snd (fst (Do c r v)) <> None) ->
       k = remaining /\
       (remaining <> O -> snd (fst (retry_loop (spy c) req remaining err0 (log, w))) <> None)).
Proof.
  induction remaining as [|n IH]; intros err0 log w.
  - exists O; simpl. rewrite app_nil_r. split; [lia|]. split; [reflexivity|].
    intros _. split; [reflexivity|]. intros Hne; now elim Hne.
  - cbn [retry_loop]. rewrite DoerProofs.do_spy.
    pose proof (fun H : forall r v, snd (fst (Do c r v)) <> None => H req w) as Hfails.
    destruct (Do c req w) as [[res err] w']; cbn [fst snd] in *.
    destruct err as [e|].
    + destruct (IH (Some e) (log ++ [req]) w') as (k & Hk & Hlog & Hall).
      exists (S k). split; [lia|]. split.
      * rewrite Hlog, <- app_assoc. reflexivity.
      * intros H. destruct (Hall H) as [-> Hne]. split; [reflexivity|].
        intros _. destruct n as [|n']; [simpl; discriminate|]. apply Hne; lia.
    + exists 1%nat. cbn [fst snd repeat]. split; [lia|]. split; [reflexivity|].
      intros H. now elim (Hfails H).
Qed.

Lemma nested_retry_loop_requests c (m : Z) req : forall outer err0 log w,
  exists k : nat,
    (k <= Z.to_nat m * outer)%nat /\
    fst (snd (retry_loop (RetryHTTPClient (spy c) m) req outer err0 (log, w))) =
      log ++ repeat req k /\
    ((forall r v, snd (fst (Do c r v)) <> None) -> k = (Z.to_nat m * outer)%nat).
Proof.
  induction outer as [|o IH]; intros err0 log w.
  - exists O; simpl. rewrite app_nil_r. split; [lia|]. split; [reflexivity|].
    intros _; lia.
  - cbn [retry_loop]. unfold RetryHTTPClient at 1. cbn [Mock Do DoFn].
    destruct (retry_loop_requests c req (Z.to_nat m) None log w)
      as (k1 & Hk1 & Hlog1 & Hall1).
    destruct (retry_loop (spy c) req (Z.to_nat m) None (log, w))
      as [[res err] [log1 w1]].
    cbn [fst snd] in *. subst log1.
    destruct err as [e|].
    + destruct (IH (Some e) (log ++ repeat req k1) w1) as (k2 & Hk2 & Hlog2 & Hall2).
      exists (k1 + k2)%nat. split; [nia|]. split.
      * rewrite Hlog2, <- app_assoc, repeat_app. reflexivity.
      * intros H. destruct (Hall1 H) as [-> _]. rewrite (Hall2 H). nia.
    + exists k1. cbn [fst snd]. split; [nia|]. split; [reflexivity|].
      intros H. destruct (Hall1 H) as [-> Hne].
      destruct (Z.to_nat m) as [|m']; [lia|]. now elim Hne.
Qed.

(** X7.  Retries multiply: [RetryHTTPClient(RetryHTTPClient(c, m), n)] sends
    at most [m * n] requests to [c] for one call, and exactly [m * n] when
    every answer of [c] is an error. *)
Theorem nested_retries_multiply c (m n : Z) req log w :
  exists k : nat,
    (k <= Z.to_nat m * Z.to_nat n)%nat /\
    fst (snd (Do (RetryHTTPClient (RetryHTTPClient (spy c) m) n) req (log, w))) =
      log ++ repeat req k /\
    ((forall r v, snd (fst (Do c r v)) <> None) -> k = (Z.to_nat m * Z.to_nat n)%nat).
Proof. exact (nested_retry_loop_requests c m req (Z.to_nat n) None log w). Qed.

End Facts.

(** Two retries around three retries over a client that is always down:
    six requests. *)
Example nested_retries_over_down :
  Do (RetryHTTPClient (RetryHTTPClient (spy Http.down) 3) 2) "GET /" ([], 0%nat) =
  ((None, Some "down"), (repeat "GET /" 6, 6%nat)).
Proof. reflexivity. Qed.

End DoerMore.

(** ** Properties of the page fetcher and of the host rewriting *)

Module HttpFacts.
Import Go Http.

Section Fetching.
Context {Request B W : Type}.
Variable NewRequest : string -> string -> W -> (Request * option error) * W.
Variable ReadAll : B -> W -> (string * option error) * W.
Variable NewReader : string -> W -> B * W.

(** X8.  Fetching from [FromString(s)] gives the length of [s] and a nil
    error, also through a [RetryHTTPClient] with a positive count, for
    every URL a request can be built for (given that reading a reader made
    from [s] gives [s]). *)
Theorem fetch_from_string s url retries w :
  snd (fst (NewRequest "GET" url w)) = None ->
  (forall v, fst (ReadAll (fst (NewReader s v)) (snd (NewReader s v))) = (s, None)) ->
  (0 < retries)%Z ->
  exists w',
    FetchPageLengthUsingHTTPClient NewRequest ReadAll (total (FromString NewReader s)) url w =
      Returns (Z.of_nat (String.length s), None) w' /\
    FetchPageLengthUsingHTTPClient NewRequest ReadAll (total (Doer.RetryHTTPClient (FromString NewReader s) retries)) url w =
      Returns (Z.of_nat (String.length s), None) w'.
Proof.
  intros Hreq Hread Hpos.
  unfold FetchPageLengthUsingHTTPClient.
  destruct (NewRequest "GET" url w) as [[req err] w1]; cbn [fst snd] in *. subst err.
  destruct (Z.to_nat retries) as [|n] eqn:Hn; [lia|].
  cbn [total call Doer.RetryHTTPClient Doer.Mock Doer.Do Doer.DoFn FromString].
  rewrite Hn. cbn [Doer.retry_loop FromString Doer.Mock Doer.Do Doer.DoFn].
  specialize (Hread w1).
  destruct (NewReader s w1) as [body w2]; cbn [fst snd Body] in *.
  destruct (ReadAll body w2) as [rd w3]; cbn [fst] in Hread. subst rd.
  exists w3. split; reflexivity.
Qed.

(** X9.  Whatever the client, a fetch that returns an error returns the
    length 0 with it, and no fetch returns a negative length. *)
Theorem fetch_error_has_zero_length (c : Client Request B W) url w n err w' :
  FetchPageLengthUsingHTTPClient NewRequest ReadAll c url w = Returns (n, err) w' ->
  (0 <= n)%Z /\ (err <> None -> n = 0%Z).
Proof.
  unfold FetchPageLengthUsingHTTPClient.
  destruct (NewRequest "GET" url w) as [[req e0] w1]; cbn [fst snd].
  destruct e0 as [e0|]; [intros [= <- <- _]; split; [lia|reflexivity]|].
  destruct (call c req w1) as [[res e1] w2|w2]; [|discriminate]. cbn [fst snd].
  destruct e1 as [e1|]; [intros [= <- <- _]; split; [lia|reflexivity]|].
  destruct res as [res|]; [|discriminate].
  destruct (Body res) as [body|]; [|discriminate].
  destruct (ReadAll body w2) as [[bs e2] w3]; cbn [fst snd].
  destruct e2 as [e2|]; intros [= <- <- _]; split; try lia; try reflexivity.
  intros H; now elim H.
Qed.

(** X10.  With a retry count of zero or less, [RetryHTTPClient] hands back a
    nil response with a nil error, and the fetcher panics on it: for every
    URL a request can be built for, the fetch panics in the world the
    request builder left, the wrapped client untouched. *)
Theorem fetch_panics_without_retries
    (c : Doer.HTTPClient Request (Response B) W) url retries w :
  (retries <= 0)%Z ->
  snd (fst (NewRequest "GET" url w)) = None ->
  FetchPageLengthUsingHTTPClient NewRequest ReadAll (total (Doer.RetryHTTPClient c retries)) url w =
    Panics (snd (NewRequest "GET" url w)).
Proof.
  intros Hr Hreq. unfold FetchPageLengthUsingHTTPClient.
  destruct (NewRequest "GET" url w) as [[req err] w1]; cbn [fst snd] in *. subst err.
  cbn [total call Doer.RetryHTTPClient Doer.Mock Doer.Do Doer.DoFn].
  replace (Z.to_nat retries) with O by lia. reflexivity.
Qed.

(** X11.  With a positive retry count over a client that hands back a
    response with a body whenever it reports no error, the fetch never
    panics. *)
Theorem fetch_with_retries_returns
    (c : Doer.HTTPClient Request (Response B) W) url retries w :
  (0 < retries)%Z ->
  answers c ->
  exists r w', FetchPageLengthUsingHTTPClient NewRequest ReadAll (total (Doer.RetryHTTPClient c retries)) url w = Returns r w'.
Proof.
  intros Hpos Hc. unfold FetchPageLengthUsingHTTPClient.
  destruct (NewRequest "GET" url w) as [[req err] w1]; cbn [fst snd].
  destruct err as [e|]; [eauto|].
  cbn [total call Doer.RetryHTTPClient Doer.Mock Doer.Do Doer.DoFn].
  destruct (DoerMore.retry_loop_result c req (Z.to_nat retries) None w1)
    as (_ & _ & Hok).
  destruct (Doer.retry_loop c req (Z.to_nat retries) None w1) as [[res e1] w2].
  cbn [fst snd] in *.
  destruct e1 as [e1|]; [eauto|].
  destruct (Hok eq_refl) as [[Hz _]|(w0 & Hw0)]; [lia|].
  destruct (Hc req w0) as (r & b & Hr & Hb); [now rewrite Hw0|].
  rewrite Hw0 in Hr; cbn [fst] in Hr. subst res. rewrite Hb.
  destruct (ReadAll b w2) as [[bs e2] w3]; cbn [fst snd].
  destruct e2; eauto.
Qed.

End Fetching.

Section Rewriting.
Context {R U B V : Type}.
Implicit Types (c : Client (option nat) B (Heap R U * V)).
Implicit Types (h : Heap R U) (v : V) (host : string).

Lemma nth_error_store_same {A : Type} (l : list A) a x y :
  nth_error l a = Some y -> nth_error (store l a x) a = Some x.
Proof.
  revert a; induction l as [|z l IH]; intros [|a] H; simpl in *; try discriminate.
  - reflexivity.
  - now apply IH.
Qed.

Lemma nth_error_store_other {A : Type} (l : list A) a a' x :
  a' <> a -> nth_error (store l a x) a' = nth_error l a'.
Proof.
  revert a a'; induction l as [|z l IH]; intros [|a] [|a'] H; simpl; try reflexivity.
  - now elim H.
  - apply IH. congruence.
Qed.

Lemma store_store {A : Type} (l : list A) a x y :
  store (store l a x) a y = store l a y.
Proof.
  revert a; induction l as [|z l IH]; intros [|a]; simpl; try reflexivity.
  now rewrite IH.
Qed.

(** One step of the decorator on a request that has a URL. *)
Lemma rewrite_host_call c host a r b u h v :
  load (requests h) (Some a) = Some r ->
  URL r = Some b ->
  load (urls h) (Some b) = Some u ->
  call (RewriteHostHTTPClient c host) (Some a) (h, v) =
  call c (Some a)
    ({| requests := store (requests h) a {| Host := host; URL := Some b; rest := rest r |};
        urls := store (urls h) b {| URL_Host := host; URL_rest := URL_rest u |} |}, v).
Proof.
  intros Hr Hb Hu.
  cbn [RewriteHostHTTPClient Mock call DoFn fst snd requests urls].
  rewrite Hr, Hb. cbn [load] in Hu |- *. rewrite Hu. reflexivity.
Qed.

(** X12.  On a request that has a URL, [RewriteHostHTTPClient(c, host)] is
    one call of [c] with the same request, made when both [req.Host] and
    [req.URL.Host] are [host]; the other fields of the request and of the
    URL, and all other requests and URLs, are as before. *)
Theorem rewrite_host_sets_both_hosts c host a r b u h v :
  load (requests h) (Some a) = Some r ->
  URL r = Some b ->
  load (urls h) (Some b) = Some u ->
  exists h',
    call (RewriteHostHTTPClient c host) (Some a) (h, v) = call c (Some a) (h', v) /\
    load (requests h') (Some a) = Some {| Host := host; URL := Some b; rest := rest r |} /\
    load (urls h') (Some b) = Some {| URL_Host := host; URL_rest := URL_rest u |} /\
    (forall a', a' <> a -> load (requests h') (Some a') = load (requests h) (Some a')) /\
    (forall b', b' <> b -> load (urls h') (Some b') = load (urls h) (Some b')).
Proof.
  intros Hr Hb Hu. eexists. split; [exact (rewrite_host_call c host a r b u h v Hr Hb Hu)|].
  cbn [load requests urls] in *.
  split; [eapply nth_error_store_same; eassumption|].
  split; [eapply nth_error_store_same; eassumption|].
  split; intros x Hx; now apply nth_error_store_other.
Qed.

(** X13.  On a request without a URL the decorator panics after it has
    written [req.Host]: the wrapped client is not called, and the request is
    left with the new host.  On a nil request it panics at once. *)
Theorem rewrite_host_without_url c host a r h v :
  load (requests h) (Some a) = Some r ->
  load (urls h) (URL r) = None ->
  exists h',
    call (RewriteHostHTTPClient c host) (Some a) (h, v) = Panics (h', v) /\
    load (requests h') (Some a) = Some {| Host := host; URL := URL r; rest := rest r |} /\
    urls h' = urls h /\
    call (RewriteHostHTTPClient c host) None (h, v) = Panics (h, v).
Proof.
  intros Hr Hu.
  exists {| requests := store (requests h) a
                          {| Host := host; URL := URL r; rest := rest r |};
            urls := urls h |}.
  split.
  - cbn [RewriteHostHTTPClient Mock call DoFn fst snd requests urls].
    rewrite Hr, Hu. destruct (URL r); reflexivity.
  - cbn [load requests urls] in *.
    split; [eapply nth_error_store_same; eassumption|].
    split; reflexivity.
Qed.

(** X14.  Of two host rewritings around a client, the inner one decides: on
    a request that has a URL, [RewriteHostHTTPClient(RewriteHostHTTPClient(c,
    inner), outer)] acts as [RewriteHostHTTPClient(c, inner)]. *)
Theorem rewrite_host_innermost_wins c inner outer a r b u h v :
  load (requests h) (Some a) = Some r ->
  URL r = Some b ->
  load (urls h) (Some b) = Some u ->
  call (RewriteHostHTTPClient (RewriteHostHTTPClient c inner) outer) (Some a) (h, v) =
  call (RewriteHostHTTPClient c inner) (Some a) (h, v).
Proof.
  intros Hr Hb Hu.
  rewrite (rewrite_host_call _ outer a r b u h v Hr Hb Hu).
  rewrite (rewrite_host_call c inner a r b u h v Hr Hb Hu).
  rewrite (rewrite_host_call c inner a
             {| Host := outer; URL := Some b; rest := rest r |} b
             {| URL_Host := outer; URL_rest := URL_rest u |}).
  - cbn [requests urls Host URL rest URL_Host URL_rest].
    now rewrite !store_store.
  - cbn [load requests]. eapply nth_error_store_same. exact Hr.
  - reflexivity.
  - cbn [load urls]. eapply nth_error_store_same. exact Hu.
Qed.

End Rewriting.

(** The witness of X8. *)
Lemma fetch_from_string_witness :
  snd (fst (newRequest "GET" "http://www.google.com" 0%nat)) = None /\
  (forall v, fst (readAll (fst (newReader "test response" v))
                          (snd (newReader "test response" v)))
             = ("test response", None)) /\
  (0 < 3)%Z /\
  exists w',
    FetchPageLengthUsingHTTPClient newRequest readAll
      (total (FromString newReader "test response")) "http://www.google.com" 0%nat =
      Returns (13%Z, None) w' /\
    FetchPageLengthUsingHTTPClient newRequest readAll
      (total (Doer.RetryHTTPClient (FromString newReader "test response") 3))
      "http://www.google.com" 0%nat =
      Returns (13%Z, None) w'.
Proof.
  split; [reflexivity|]. split; [reflexivity|]. split; [lia|].
  apply (fetch_from_string newRequest readAll newReader
           "test response" "http://www.google.com" 3 0%nat);
    [reflexivity|reflexivity|lia].
Defined.

(** The witness of X9: a URL no request can be built for. *)
Lemma fetch_error_has_zero_length_witness :
  FetchPageLengthUsingHTTPClient newRequest readAll
    (total (FromString newReader "test response")) "%" 0%nat =
    Returns (0%Z, Some "invalid URL escape") 0%nat /\
  (0 <= 0)%Z /\ (Some "invalid URL escape" <> None -> 0%Z = 0%Z).
Proof.
  split; [reflexivity|].
  apply (fetch_error_has_zero_length newRequest readAll
           (total (FromString newReader "test response")) "%" 0%nat
           0%Z (Some "invalid URL escape") 0%nat).
  reflexivity.
Defined.

(** The witness of X10. *)
Lemma fetch_panics_without_retries_witness :
  (0 <= 0)%Z /\
  snd (fst (newRequest "GET" "http://www.google.com" 0%nat)) = None /\
  FetchPageLengthUsingHTTPClient newRequest readAll
    (total (Doer.RetryHTTPClient (FromString newReader "test response") 0))
    "http://www.google.com" 0%nat =
    Panics 0%nat.
Proof.
  split; [lia|]. split; [reflexivity|].
  apply (fetch_panics_without_retries newRequest readAll
           (FromString newReader "test response") "http://www.google.com" 0 0%nat);
    [lia|reflexivity].
Defined.

(** The witness of X11. *)
Lemma fetch_with_retries_returns_witness :
  (0 < 3)%Z /\
  answers (FromString newReader "test response" (Request := string)) /\
  exists r w',
    FetchPageLengthUsingHTTPClient newRequest readAll
      (total (Doer.RetryHTTPClient (FromString newReader "test response") 3))
      "http://www.google.com" 0%nat = Returns r w'.
Proof.
  assert (H : answers (FromString newReader "test response" (Request := string)))
    by (intros req w _; exists {| Body := Some "test response" |}, "test response";
        split; reflexivity).
  split; [lia|]. split; [exact H|].
  apply (fetch_with_retries_returns newRequest readAll
           (FromString newReader "test response") "http://www.google.com" 3 0%nat);
    [lia|exact H].
Defined.

(** The witness of X12: the wrapped client sees the new host twice. *)
Lemma rewrite_host_sets_both_hosts_witness :
  load (requests one_request) (Some 0%nat)
    = Some {| Host := "a.example"; URL := Some 0%nat; rest := tt |} /\
  call (RewriteHostHTTPClient hosts_seen "b.example") (Some 0%nat) (one_request, 0%nat)
    = Returns (None, Some "b.example b.example")
        ({| requests := [{| Host := "b.example"; URL := Some 0%nat; rest := tt |}];
            urls := [{| URL_Host := "b.example"; URL_rest := tt |}] |}, 1%nat) /\
  exists h',
    call (RewriteHostHTTPClient hosts_seen "b.example") (Some 0%nat) (one_request, 0%nat)
      = call hosts_seen (Some 0%nat) (h', 0%nat).
Proof.
  split; [reflexivity|]. split; [reflexivity|].
  destruct (rewrite_host_sets_both_hosts hosts_seen "b.example" 0%nat
              {| Host := "a.example"; URL := Some 0%nat; rest := tt |} 0%nat
              {| URL_Host := "a.example"; URL_rest := tt |} one_request 0%nat
              eq_refl eq_refl eq_refl) as (h' & Hcall & _).
  exists h'. exact Hcall.
Defined.

(** The witness of X13. *)
Lemma rewrite_host_without_url_witness :
  load (requests no_url) (Some 0%nat)
    = Some {| Host := "a.example"; URL := None; rest := tt |} /\
  call (RewriteHostHTTPClient hosts_seen "b.example") (Some 0%nat) (no_url, 0%nat)
    = Panics ({| requests := [{| Host := "b.example"; URL := None; rest := tt |}];
                 urls := [] |}, 0%nat) /\
  exists h',
    call (RewriteHostHTTPClient hosts_seen "b.example") (Some 0%nat) (no_url, 0%nat)
      = Panics (h', 0%nat).
Proof.
  split; [reflexivity|]. split; [reflexivity|].
  destruct (rewrite_host_without_url hosts_seen "b.example" 0%nat
              {| Host := "a.example"; URL := None; rest := tt |} no_url 0%nat
              eq_refl eq_refl) as (h' & Hcall & _).
  exists h'. exact Hcall.
Defined.

(** The witness of X14. *)
Lemma rewrite_host_innermost_wins_witness :
  load (requests one_request) (Some 0%nat)
    = Some {| Host := "a.example"; URL := Some 0%nat; rest := tt |} /\
  call (RewriteHostHTTPClient (RewriteHostHTTPClient hosts_seen "in.example") "out.example")
       (Some 0%nat) (one_request, 0%nat)
    = call (RewriteHostHTTPClient hosts_seen "in.example") (Some 0%nat) (one_request, 0%nat).
Proof.
  split; [reflexivity|].
  exact (rewrite_host_innermost_wins hosts_seen "in.example" "out.example" 0%nat
           {| Host := "a.example"; URL := Some 0%nat; rest := tt |} 0%nat
           {| URL_Host := "a.example"; URL_rest := tt |} one_request 0%nat
           eq_refl eq_refl eq_refl).
Defined.

End HttpFacts.
